(** * gitingest_wrapper: a shallow embedding of [backend/scripts/gitingest_wrapper.py]

    The script reads [sys.argv], imports [ingest] from the [gitingest]
    package, calls it on the repository URL, caps the content at 50000
    characters and prints one JSON object.  This file embeds the script in
    a small exception-and-trace monad and proves the properties of its
    observable behaviour. *)

From Stdlib Require Import List String Ascii ZArith NArith Bool Lia.
From Stdlib Require Import DecimalString.
Import ListNotations.

Local Open Scope Z_scope.

(** ** Python values *)

(** A Python [str] is a sequence of Unicode code points; [len] and slicing
    count code points. *)
Definition codepoint := N.
Definition pystr := list codepoint.

(** The code points of an ASCII literal of the source. *)
Definition lit (s : string) : pystr :=
  List.map N_of_ascii (list_ascii_of_string s).

(** The values the script handles: [None], [True]/[False] and [str]. *)
Inductive pyval : Type :=
| PNone
| PBool (b : bool)
| PStr (s : pystr).

(** A dict literal keeps insertion order, which [json.dumps] follows. *)
Definition dict := list (pystr * pyval).

(** What the collaborator hands back for one artifact: text or absent. *)
Definition of_optional (o : option pystr) : pyval :=
  match o with
  | Some s => PStr s
  | None => PNone
  end.

(** ** Exceptions *)

(** The builtin classes that matter to the two [except] clauses, with
    [LibraryError] standing for a class a library derives from
    [Exception]. *)
Inductive exc_class : Type :=
| KeyboardInterrupt
| GeneratorExit
| ImportError
| ModuleNotFoundError
| TypeError
| ValueError
| IndexError
| OSError
| RuntimeError
| LibraryError.

(** [SystemExit] carries the exit status; every other exception carries
    its class and the text [str(e)] returns. *)
Inductive pyexc : Type :=
| SystemExit (code : Z)
| Exc (cls : exc_class) (msg : pystr).

(** [isinstance(e, ImportError)]: [ModuleNotFoundError] derives from
    [ImportError]. *)
Definition isinstance_ImportError (e : pyexc) : bool :=
  match e with
  | Exc ImportError _ | Exc ModuleNotFoundError _ => true
  | _ => false
  end.

(** [isinstance(e, Exception)]: [SystemExit], [KeyboardInterrupt] and
    [GeneratorExit] derive from [BaseException] only. *)
Definition isinstance_Exception (e : pyexc) : bool :=
  match e with
  | SystemExit _ | Exc KeyboardInterrupt _ | Exc GeneratorExit _ => false
  | Exc _ _ => true
  end.

(** [str(e)]: for [SystemExit(code)] the decimal text of the code. *)
Definition str_exc (e : pyexc) : pystr :=
  match e with
  | SystemExit code => lit (NilZero.string_of_int (Z.to_int code))
  | Exc _ msg => msg
  end.

(** ** The monad: a trace of effects and a result or a raised exception *)

Inductive event : Type :=
| EImport (module : pystr)
| EPrintJson (d : dict).

Definition trace := list event.

Inductive result (A : Type) : Type :=
| Ok (a : A)
| Raise (e : pyexc).

Arguments Ok {A} a.
Arguments Raise {A} e.

Definition py (A : Type) : Type := trace -> trace * result A.

Definition ret {A} (a : A) : py A := fun t => (t, Ok a).

Definition bind {A B} (m : py A) (k : A -> py B) : py B :=
  fun t =>
    match m t with
    | (t', Ok a) => k a t'
    | (t', Raise e) => (t', Raise e)
    end.

Definition raise {A} (e : pyexc) : py A := fun t => (t, Raise e).

Definition emit (ev : event) : py unit := fun t => (t ++ [ev], Ok tt).

Definition lift {A} (r : result A) : py A := fun t => (t, r).

Declare Scope py_scope.
Delimit Scope py_scope with py.
Notation "x <- m ;; k" := (bind m (fun x => k))
  (at level 61, m at next level, right associativity) : py_scope.
Notation "m ;; k" := (bind m (fun _ => k))
  (at level 61, right associativity) : py_scope.

(** [try: body except ImportError: h1 except Exception as e: h2 e].  The
    first clause whose class matches runs; an exception neither clause
    matches, or one raised by a handler, propagates. *)
Definition try_except {A} (body : py A) (on_import_error : py A)
    (on_exception : pyexc -> py A) : py A :=
  fun t =>
    match body t with
    | (t', Ok a) => (t', Ok a)
    | (t', Raise e) =>
        if isinstance_ImportError e then on_import_error t'
        else if isinstance_Exception e then on_exception e t'
        else (t', Raise e)
    end.

(** ** Builtins the script uses *)

Definition len_list {A} (l : list A) : Z := Z.of_nat (List.length l).

(** [len(v)]. *)
Definition py_len (v : pyval) : py Z :=
  match v with
  | PStr s => ret (len_list s)
  | PNone => raise (Exc TypeError (lit "object of type 'NoneType' has no len()"))
  | PBool _ => raise (Exc TypeError (lit "object of type 'bool' has no len()"))
  end.

(** [s[:stop]] on a sequence: a negative [stop] counts from the end, and
    the bound is clamped to the length. *)
Definition slice_to {A} (s : list A) (stop : Z) : list A :=
  let n := len_list s in
  let hi := if stop <? 0 then Z.max 0 (n + stop) else Z.min stop n in
  firstn (Z.to_nat hi) s.

(** [v[:stop]]. *)
Definition py_slice_to (v : pyval) (stop : Z) : py pyval :=
  match v with
  | PStr s => ret (PStr (slice_to s stop))
  | PNone => raise (Exc TypeError (lit "'NoneType' object is not subscriptable"))
  | PBool _ => raise (Exc TypeError (lit "'bool' object is not subscriptable"))
  end.

(** [v + suffix] with a [str] on the right. *)
Definition py_add_str (v : pyval) (suffix : pystr) : py pyval :=
  match v with
  | PStr s => ret (PStr (s ++ suffix))
  | PNone =>
      raise (Exc TypeError
               (lit "unsupported operand type(s) for +: 'NoneType' and 'str'"))
  | PBool _ =>
      raise (Exc TypeError
               (lit "unsupported operand type(s) for +: 'bool' and 'str'"))
  end.

(** Truth value: [None], [False] and the empty string are false. *)
Definition truthy (v : pyval) : bool :=
  match v with
  | PNone => false
  | PBool b => b
  | PStr [] => false
  | PStr (_ :: _) => true
  end.

(** [a or b]. *)
Definition py_or (a b : pyval) : pyval := if truthy a then a else b.

(** [l[i]] on a list. *)
Definition py_getitem {A} (l : list A) (i : Z) : py A :=
  let n := len_list l in
  let j := if i <? 0 then i + n else i in
  match (if (0 <=? j) && (j <? n) then nth_error l (Z.to_nat j) else None) with
  | Some a => ret a
  | None => raise (Exc IndexError (lit "list index out of range"))
  end.

(** [sys.exit(code)]. *)
Definition sys_exit {A} (code : Z) : py A := raise (SystemExit code).

(** ** [json.dumps] with its default options *)

Definition hexdigit (n : N) : codepoint :=
  (if n <? 10 then 48 + n else 87 + n)%N.

(** [format(n, "04x")] for [n < 0x10000]. *)
Definition hex4 (n : N) : pystr :=
  [hexdigit (N.shiftr n 12 mod 16); hexdigit (N.shiftr n 8 mod 16);
   hexdigit (N.shiftr n 4 mod 16); hexdigit (n mod 16)]%N.

Definition backslash : codepoint := 92%N.
Definition dquote : codepoint := 34%N.

Definition u_escape (n : N) : pystr := backslash :: 117%N :: hex4 n.

(** [ensure_ascii=True]: the short escapes, [\uXXXX] for every other
    character outside [' '..'~'], a surrogate pair above the BMP. *)
Definition json_escape (c : codepoint) : pystr :=
  (if c =? 34 then [backslash; dquote]
   else if c =? 92 then [backslash; backslash]
   else if c =? 10 then [backslash; 110]
   else if c =? 13 then [backslash; 114]
   else if c =? 9 then [backslash; 116]
   else if c =? 8 then [backslash; 98]
   else if c =? 12 then [backslash; 102]
   else if (32 <=? c) && (c <=? 126) then [c]
   else if c <? 65536 then u_escape c
   else
     let n := c - 65536 in
     let s1 := N.lor 55296 (N.land (N.shiftr n 10) 1023) in
     let s2 := N.lor 56320 (N.land n 1023) in
     u_escape s1 ++ u_escape s2)%N.

Definition json_string (s : pystr) : pystr :=
  dquote :: flat_map json_escape s ++ [dquote].

Definition json_value (v : pyval) : pystr :=
  match v with
  | PNone => lit "null"
  | PBool true => lit "true"
  | PBool false => lit "false"
  | PStr s => json_string s
  end.

Definition json_item (kv : pystr * pyval) : pystr :=
  json_string (fst kv) ++ lit ": " ++ json_value (snd kv).

Fixpoint json_items (d : dict) : pystr :=
  match d with
  | [] => []
  | [kv] => json_item kv
  | kv :: rest => json_item kv ++ lit ", " ++ json_items rest
  end.

Definition json_dumps (d : dict) : pystr :=
  lit "{" ++ json_items d ++ lit "}".

(** [print(json.dumps(d))]: the trace keeps the dict that was serialised,
    [stdout_text] below gives the characters written. *)
Definition print_json_dumps (d : dict) : py unit := emit (EPrintJson d).

Definition newline : codepoint := 10%N.

Definition stdout_text (t : trace) : pystr :=
  flat_map (fun ev =>
              match ev with
              | EPrintJson d => json_dumps d ++ [newline]
              | EImport _ => []
              end) t.

(** The dicts printed, in order. *)
Definition printed (t : trace) : list dict :=
  flat_map (fun ev =>
              match ev with
              | EPrintJson d => [d]
              | EImport _ => []
              end) t.

(** The modules imported, in order. *)
Definition imported (t : trace) : list pystr :=
  flat_map (fun ev =>
              match ev with
              | EImport m => [m]
              | EPrintJson _ => []
              end) t.

(** ** The script *)

(** The [ingest] function of the package: from the repository identifier
    to the triple (summary, tree, content), each text or absent, or a
    raised exception. *)
Definition ingest_fn : Type :=
  pystr -> result (option pystr * option pystr * option pystr).

Definition truncation_marker : pystr :=
  [newline; newline] ++ lit "... [Content truncated for size]".

Definition failure_record (error : pystr) : dict :=
  [(lit "success", PBool false); (lit "error", PStr error)].

Section Script.

(** [sys.argv], with the script's own name first. *)
Variable sys_argv : list pystr.

(** What [from gitingest import ingest] yields in this environment: the
    function, or the exception the import raises. *)
Variable gitingest : result ingest_fn.

Definition from_gitingest_import_ingest : py ingest_fn :=
  (emit (EImport (lit "gitingest")) ;; lift gitingest)%py.

Definition call_ingest (ingest : ingest_fn) (repo_url : pystr)
  : py (pyval * pyval * pyval) :=
  (r <- lift (ingest repo_url) ;;
   let '(summary, tree, content) := r in
   ret (of_optional summary, of_optional tree, of_optional content))%py.

Definition main : py unit :=
  ((if len_list sys_argv <? 2 then
      print_json_dumps
        [(lit "success", PBool false);
         (lit "error", PStr (lit "No repository URL provided"))] ;;
      sys_exit 1
    else ret tt) ;;
   repo_url <- py_getitem sys_argv 1 ;;
   try_except
     (ingest <- from_gitingest_import_ingest ;;
      r <- call_ingest ingest repo_url ;;
      let '(summary, tree, content) := r in
      let max_content_size := 50000 in
      n <- py_len content ;;
      content <- (if n >? max_content_size then
                    head <- py_slice_to content max_content_size ;;
                    py_add_str head truncation_marker
                  else ret content) ;;
      let result :=
        [(lit "success", PBool true);
         (lit "summary", py_or summary (PStr (lit "")));
         (lit "tree", py_or tree (PStr (lit "")));
         (lit "content", py_or content (PStr (lit "")))] in
      print_json_dumps result)
     (print_json_dumps
        [(lit "success", PBool false);
         (lit "error",
          PStr (lit "gitingest package not installed. Run: pip install gitingest"))] ;;
      sys_exit 1)
     (fun e =>
        print_json_dumps
          [(lit "success", PBool false);
           (lit "error", PStr (str_exc e))] ;;
        sys_exit 1))%py.

End Script.

(** ** Running the script as a process *)

(** How the process ends: with an exit status, or with an exception that
    nothing caught (the interpreter prints a traceback to stderr). *)
Inductive termination : Type :=
| Exit (status : Z)
| Uncaught (e : pyexc).

(** The end of the process for the result of [main].  [SystemExit(code)]
    with an integer code ends it with the low eight bits of the code, which
    is what the parent process sees as the exit status: [sys.exit(256)]
    gives 0 and [sys.exit(-1)] gives 255. *)
Definition terminate (r : result unit) : termination :=
  match r with
  | Ok _ => Exit 0
  | Raise (SystemExit code) => Exit (code mod 256)
  | Raise e => Uncaught e
  end.

(** [if __name__ == "__main__": main()] from an empty trace. *)
Definition run (sys_argv : list pystr) (gitingest : result ingest_fn)
  : trace * termination :=
  let '(t, r) := main sys_argv gitingest [] in (t, terminate r).

(** ** Vocabulary of the properties *)

Fixpoint pystr_eqb (a b : pystr) : bool :=
  match a, b with
  | [], [] => true
  | x :: a', y :: b' => N.eqb x y && pystr_eqb a' b'
  | _, _ => false
  end.

(** [d.get(k)]. *)
Fixpoint dict_get (d : dict) (k : pystr) : option pyval :=
  match d with
  | [] => None
  | (k', v) :: rest => if pystr_eqb k k' then Some v else dict_get rest k
  end.

Definition keys (d : dict) : list pystr := List.map fst d.

Fixpoint keys_eqb (ks ks' : list pystr) : bool :=
  match ks, ks' with
  | [], [] => true
  | k :: r, k' :: r' => pystr_eqb k k' && keys_eqb r r'
  | _, _ => false
  end.

Definition is_str (o : option pyval) : bool :=
  match o with
  | Some (PStr _) => true
  | _ => false
  end.

Definition is_bool (b : bool) (o : option pyval) : bool :=
  match o with
  | Some (PBool b') => Bool.eqb b b'
  | _ => false
  end.

(** The success shape: exactly the keys success, summary, tree and
    content, with [success] true and three strings. *)
Definition success_shape (d : dict) : bool :=
  keys_eqb (keys d) [lit "success"; lit "summary"; lit "tree"; lit "content"]
  && is_bool true (dict_get d (lit "success"))
  && is_str (dict_get d (lit "summary"))
  && is_str (dict_get d (lit "tree"))
  && is_str (dict_get d (lit "content")).

(** The failure shape: exactly the keys success and error, with [success]
    false and a string. *)
Definition failure_shape (d : dict) : bool :=
  keys_eqb (keys d) [lit "success"; lit "error"]
  && is_bool false (dict_get d (lit "success"))
  && is_str (dict_get d (lit "error")).

Definition exactly_one_shape (d : dict) : bool :=
  xorb (success_shape d) (failure_shape d).

Definition success_record (summary tree content : pystr) : dict :=
  [(lit "success", PBool true); (lit "summary", PStr summary);
   (lit "tree", PStr tree); (lit "content", PStr content)].

(** The text of an artifact, empty when absent. *)
Definition or_empty (o : option pystr) : pystr :=
  match o with
  | Some s => s
  | None => []
  end.

(** The first [n] characters of a string. *)
Definition first_chars (n : Z) (s : pystr) : pystr := firstn (Z.to_nat n) s.

Fixpoint prefixb (p s : pystr) : bool :=
  match p, s with
  | [], _ => true
  | x :: p', y :: s' => N.eqb x y && prefixb p' s'
  | _ :: _, [] => false
  end.

(** [p in s] on strings. *)
Fixpoint infixb (p s : pystr) : bool :=
  prefixb p s ||
  match s with
  | [] => false
  | _ :: s' => infixb p s'
  end.

Definition usage_error : pystr := lit "No repository URL provided".

Definition not_installed_error : pystr :=
  lit "gitingest package not installed. Run: pip install gitingest".

(** The exception the capability raises for this invocation, if any: the
    one of the import, else the one of the call. *)
Definition capability_raises (sys_argv : list pystr) (gitingest : result ingest_fn)
  : option pyexc :=
  match nth_error sys_argv 1, gitingest with
  | None, _ => None
  | Some _, Raise e => Some e
  | Some url, Ok ingest =>
      match ingest url with
      | Raise e => Some e
      | Ok _ => None
      end
  end.

(** What a raised exception [e] leads to, whether the import or the call
    raised it. *)
Definition raised_outcome (e : pyexc) : trace * termination :=
  if isinstance_ImportError e then
    ([EImport (lit "gitingest"); EPrintJson (failure_record not_installed_error)],
     Exit 1)
  else if isinstance_Exception e then
    ([EImport (lit "gitingest"); EPrintJson (failure_record (str_exc e))], Exit 1)
  else ([EImport (lit "gitingest")], terminate (Raise e)).

(** The content of the record printed, when one record with a string
    content was printed. *)
Definition printed_content (t : trace) : option pystr :=
  match printed t with
  | [d] =>
      match dict_get d (lit "content") with
      | Some (PStr s) => Some s
      | _ => None
      end
  | _ => None
  end.

(** A string of ASCII characters only. *)
Definition ascii_only (s : pystr) : Prop := Forall (fun c => (c < 128)%N) s.

(** The content the success record carries for a text content [c]. *)
Definition capped_content (c : pystr) : pystr :=
  if 50000 <? len_list c then first_chars 50000 c ++ truncation_marker else c.

(** The run in closed form, path by path. *)
Definition closed_form (sys_argv : list pystr) (gitingest : result ingest_fn)
  : trace * termination :=
  match nth_error sys_argv 1 with
  | None => ([EPrintJson (failure_record usage_error)], Exit 1)
  | Some url =>
      match gitingest with
      | Raise e => raised_outcome e
      | Ok ingest =>
          match ingest url with
          | Raise e => raised_outcome e
          | Ok (s, tr, None) =>
              ([EImport (lit "gitingest");
                EPrintJson
                  (failure_record (lit "object of type 'NoneType' has no len()"))],
               Exit 1)
          | Ok (s, tr, Some c) =>
              ([EImport (lit "gitingest");
                EPrintJson
                  (success_record (or_empty s) (or_empty tr) (capped_content c))],
               Exit 0)
          end
      end
  end.

(** The content of a record is absent or a string of at most [n]
    characters. *)
Definition content_at_most (n : Z) (d : dict) : bool :=
  match dict_get d (lit "content") with
  | Some (PStr s) => len_list s <=? n
  | Some _ => false
  | None => true
  end.

(** Sample inputs for the concrete runs. *)
Definition sample_url : pystr := lit "https://github.com/example/repo".

Definition sample_argv : list pystr := [lit "gitingest_wrapper.py"; sample_url].

Definition sample_ingest : ingest_fn :=
  fun _ => Ok (Some (lit "A sample repo"), Some (lit "repo/"),
               Some (lit "print('hi')")).

(** A content of 50001 characters. *)
Definition long_content : pystr := repeat 97%N (Z.to_nat 50001).

(** ** Stepping through [main] *)

(** The example of the specification: a small repository. *)
Example run_sample :
  let out := run [lit "gitingest_wrapper.py"; lit "https://github.com/example/repo"]
               (Ok (fun _ => Ok (Some (lit "A sample repo"),
                                 Some (lit "repo/" ++ [newline] ++ lit "  file.py"),
                                 Some (lit "print('hi')")))) in
  stdout_text (fst out) =
    lit "{" ++ [dquote] ++ lit "success" ++ [dquote] ++ lit ": true, "
      ++ [dquote] ++ lit "summary" ++ [dquote] ++ lit ": " ++ [dquote]
      ++ lit "A sample repo" ++ [dquote] ++ lit ", "
      ++ [dquote] ++ lit "tree" ++ [dquote] ++ lit ": " ++ [dquote]
      ++ lit "repo/\n  file.py" ++ [dquote] ++ lit ", "
      ++ [dquote] ++ lit "content" ++ [dquote] ++ lit ": " ++ [dquote]
      ++ lit "print('hi')" ++ [dquote] ++ lit "}" ++ [newline]
  /\ snd out = Exit 0.
Proof. split; reflexivity. Qed.

(** The usage failure as written to standard output. *)
Example run_no_argument_text :
  stdout_text (fst (run [lit "gitingest_wrapper.py"] (Ok sample_ingest))) =
    lit "{" ++ [dquote] ++ lit "success" ++ [dquote] ++ lit ": false, "
      ++ [dquote] ++ lit "error" ++ [dquote] ++ lit ": " ++ [dquote]
      ++ lit "No repository URL provided" ++ [dquote] ++ lit "}" ++ [newline].
Proof. reflexivity. Qed.

(** At the limit: 50000 characters pass unchanged, 50001 are cut to 50000
    and marked. *)
Example run_content_50000 :
  option_map (pystr_eqb (repeat 97%N (Z.to_nat 50000)))
    (printed_content
       (fst (run sample_argv
               (Ok (fun _ => Ok (None, None, Some (repeat 97%N (Z.to_nat 50000))))))))
  = Some true.
Proof. vm_compute. reflexivity. Qed.

Example run_content_50001 :
  option_map (pystr_eqb (repeat 97%N (Z.to_nat 50000) ++ truncation_marker))
    (printed_content
       (fst (run sample_argv (Ok (fun _ => Ok (None, None, Some long_content))))))
  = Some true.
Proof. vm_compute. reflexivity. Qed.

(** The exit status keeps the low eight bits of an integer code. *)
Example terminate_wraps :
  terminate (Raise (SystemExit 256)) = Exit 0
  /\ terminate (Raise (SystemExit (-1))) = Exit 255
  /\ terminate (Raise (SystemExit 1)) = Exit 1.
Proof. repeat split. Qed.

Lemma len_list_cons {A} (a : A) (l : list A) : len_list (a :: l) = 1 + len_list l.
Proof. unfold len_list. cbn [List.length]. lia. Qed.

Lemma len_list_nonneg {A} (l : list A) : 0 <= len_list l.
Proof. unfold len_list. lia. Qed.

Lemma argv_short (argv : list pystr) :
  len_list argv < 2 <-> nth_error argv 1 = None.
Proof.
  destruct argv as [|a [|u r]]; cbn [nth_error]; rewrite ?len_list_cons.
  - unfold len_list; cbn [List.length]. split; [reflexivity | lia].
  - unfold len_list; cbn [List.length]. split; [reflexivity | lia].
  - pose proof (len_list_nonneg r). split; [lia | discriminate].
Qed.

Lemma argv_check_false (a u : pystr) (r : list pystr) :
  (len_list (a :: u :: r) <? 2) = false.
Proof.
  rewrite !len_list_cons. pose proof (len_list_nonneg r).
  apply Z.ltb_ge. lia.
Qed.

Lemma getitem_1 (a u : pystr) (r : list pystr) (t : trace) :
  py_getitem (a :: u :: r) 1 t = (t, Ok u).
Proof.
  unfold py_getitem. cbn [Z.ltb Z.compare Z.leb andb].
  replace (1 <? len_list (a :: u :: r)) with true; [reflexivity|].
  symmetry. apply Z.ltb_lt. rewrite !len_list_cons.
  pose proof (len_list_nonneg r). lia.
Qed.

Lemma argv_with_url (argv : list pystr) (url : pystr) :
  nth_error argv 1 = Some url -> exists a r, argv = a :: url :: r.
Proof.
  destruct argv as [|a [|u r]]; cbn [nth_error]; intros H; try discriminate.
  injection H as ->. now exists a, r.
Qed.

Lemma py_or_optional (o : option pystr) :
  py_or (of_optional o) (PStr (lit "")) = PStr (or_empty o).
Proof. destruct o as [[|c s]|]; reflexivity. Qed.

Lemma py_or_str (s : pystr) : py_or (PStr s) (PStr (lit "")) = PStr s.
Proof. exact (py_or_optional (Some s)). Qed.

Lemma slice_to_long {A} (s : list A) (n : Z) :
  0 <= n -> n < len_list s -> slice_to s n = firstn (Z.to_nat n) s.
Proof.
  intros Hn Hlt. unfold slice_to.
  destruct (Z.ltb_spec n 0); [lia|].
  now rewrite Z.min_l by lia.
Qed.

Lemma len_list_app {A} (l l' : list A) :
  len_list (l ++ l') = len_list l + len_list l'.
Proof. unfold len_list. rewrite length_app. lia. Qed.

Lemma len_first_chars (n : Z) (s : pystr) :
  0 <= n -> n <= len_list s -> len_list (first_chars n s) = n.
Proof.
  unfold first_chars, len_list. intros Hn Hle.
  rewrite length_firstn. lia.
Qed.

(** Unfolds the monad and the builtins along one path of [main]. *)
Ltac py_run :=
  cbv [bind ret raise emit lift try_except sys_exit print_json_dumps
       from_gitingest_import_ingest call_ingest py_len py_slice_to
       py_add_str].

(** Enters [main] past the argument check when [argv[1]] exists. *)
Ltac enter_main H :=
  let a := fresh "a" in
  let r := fresh "r" in
  destruct (argv_with_url _ _ H) as (a & r & ->);
  unfold run, main; rewrite argv_check_false;
  unfold bind at 1; unfold ret at 1; unfold bind at 1; rewrite getitem_1.

Lemma run_no_argument (argv : list pystr) (g : result ingest_fn) :
  nth_error argv 1 = None ->
  run argv g = ([EPrintJson (failure_record usage_error)], Exit 1).
Proof.
  intros H. apply argv_short in H. apply Z.ltb_lt in H.
  unfold run, main. rewrite H. reflexivity.
Qed.

Lemma run_import_raises (argv : list pystr) (url : pystr) (e : pyexc) :
  nth_error argv 1 = Some url ->
  run argv (Raise e) = raised_outcome e.
Proof.
  intros H. enter_main H. py_run. unfold raised_outcome.
  destruct (isinstance_ImportError e); [reflexivity|].
  destruct (isinstance_Exception e); reflexivity.
Qed.

Lemma run_ingest_raises (argv : list pystr) (url : pystr) (ingest : ingest_fn)
    (e : pyexc) :
  nth_error argv 1 = Some url ->
  ingest url = Raise e ->
  run argv (Ok ingest) = raised_outcome e.
Proof.
  intros H Hi. enter_main H. py_run. rewrite Hi. unfold raised_outcome.
  destruct (isinstance_ImportError e); [reflexivity|].
  destruct (isinstance_Exception e); reflexivity.
Qed.

Lemma run_content_none (argv : list pystr) (url : pystr) (ingest : ingest_fn)
    (s tr : option pystr) :
  nth_error argv 1 = Some url ->
  ingest url = Ok (s, tr, None) ->
  run argv (Ok ingest) =
    ([EImport (lit "gitingest");
      EPrintJson (failure_record (lit "object of type 'NoneType' has no len()"))],
     Exit 1).
Proof.
  intros H Hi. enter_main H. py_run. rewrite Hi. reflexivity.
Qed.

Lemma run_content_long (argv : list pystr) (url : pystr) (ingest : ingest_fn)
    (s tr : option pystr) (c : pystr) :
  nth_error argv 1 = Some url ->
  ingest url = Ok (s, tr, Some c) ->
  50000 < len_list c ->
  run argv (Ok ingest) =
    ([EImport (lit "gitingest");
      EPrintJson (success_record (or_empty s) (or_empty tr)
                    (first_chars 50000 c ++ truncation_marker))],
     Exit 0).
Proof.
  intros H Hi Hlen. enter_main H. py_run. rewrite Hi.
  cbv beta iota. cbn [of_optional].
  destruct (Z.gtb_spec (len_list c) 50000) as [_|Hle]; [|lia].
  rewrite !py_or_optional, py_or_str, slice_to_long by lia.
  reflexivity.
Qed.

Lemma run_content_short (argv : list pystr) (url : pystr) (ingest : ingest_fn)
    (s tr : option pystr) (c : pystr) :
  nth_error argv 1 = Some url ->
  ingest url = Ok (s, tr, Some c) ->
  len_list c <= 50000 ->
  run argv (Ok ingest) =
    ([EImport (lit "gitingest");
      EPrintJson (success_record (or_empty s) (or_empty tr) c)],
     Exit 0).
Proof.
  intros H Hi Hlen. enter_main H. py_run. rewrite Hi.
  cbv beta iota. cbn [of_optional].
  destruct (Z.gtb_spec (len_list c) 50000) as [Hgt|_]; [lia|].
  rewrite !py_or_optional, py_or_str.
  reflexivity.
Qed.

Lemma run_argv_irrelevant (argv : list pystr) (url : pystr)
    (g : result ingest_fn) :
  nth_error argv 1 = Some url ->
  run argv g = run [[]; url] g.
Proof.
  intros H. enter_main H. symmetry.
  unfold run, main; rewrite argv_check_false.
  unfold bind at 1; unfold ret at 1; unfold bind at 1; rewrite getitem_1.
  reflexivity.
Qed.

Lemma failure_record_shape (error : pystr) :
  exactly_one_shape (failure_record error) = true.
Proof. reflexivity. Qed.

Lemma success_record_shape (summary tree content : pystr) :
  exactly_one_shape (success_record summary tree content) = true.
Proof. reflexivity. Qed.

(** Every run is one of the paths above. *)
Lemma run_cases (argv : list pystr) (g : result ingest_fn) :
  (exists error, run argv g = ([EPrintJson (failure_record error)], Exit 1))
  \/ (exists error,
        run argv g =
          ([EImport (lit "gitingest"); EPrintJson (failure_record error)], Exit 1))
  \/ (exists summary tree content,
        run argv g =
          ([EImport (lit "gitingest");
            EPrintJson (success_record summary tree content)], Exit 0))
  \/ (exists e,
        capability_raises argv g = Some e /\ isinstance_Exception e = false
        /\ run argv g = ([EImport (lit "gitingest")], terminate (Raise e))).
Proof.
  destruct (nth_error argv 1) as [url|] eqn:Hu.
  - assert (Hraise : forall e,
               capability_raises argv g = Some e ->
               run argv g = raised_outcome e ->
               (exists error,
                   run argv g =
                     ([EImport (lit "gitingest");
                       EPrintJson (failure_record error)], Exit 1))
               \/ (exists e',
                      capability_raises argv g = Some e'
                      /\ isinstance_Exception e' = false
                      /\ run argv g =
                           ([EImport (lit "gitingest")], terminate (Raise e')))).
    { intros e Hc ->. unfold raised_outcome.
      destruct (isinstance_ImportError e); [left; eauto|].
      destruct (isinstance_Exception e) eqn:He; [left; eauto|].
      right. exists e. auto. }
    right. destruct g as [ingest|e].
    + destruct (ingest url) as [[[s tr] [c|]]|e] eqn:Hi.
      * right. left.
        destruct (Z.lt_ge_cases 50000 (len_list c)) as [Hlt|Hge].
        -- rewrite (run_content_long _ _ _ _ _ _ Hu Hi Hlt). eauto.
        -- rewrite (run_content_short _ _ _ _ _ _ Hu Hi Hge). eauto.
      * left. rewrite (run_content_none _ _ _ _ _ Hu Hi). eauto.
      * destruct (Hraise e) as [Hp|Hp].
        -- unfold capability_raises. now rewrite Hu, Hi.
        -- exact (run_ingest_raises _ _ _ _ Hu Hi).
        -- now left.
        -- now right; right.
    + destruct (Hraise e) as [Hp|Hp].
      * unfold capability_raises. now rewrite Hu.
      * exact (run_import_raises _ _ _ Hu).
      * now left.
      * now right; right.
  - left. rewrite (run_no_argument _ _ Hu). eauto.
Qed.

(** Unless the capability raises something that is not an [Exception],
    exactly one record is printed. *)
Lemma one_record_printed (argv : list pystr) (g : result ingest_fn) :
  (forall e, capability_raises argv g = Some e -> isinstance_Exception e = true) ->
  exists d, printed (fst (run argv g)) = [d].
Proof.
  intros Hcaught.
  destruct (run_cases argv g)
    as [(error & ->)|[(error & ->)|[(s & tr & c & ->)|(e & Hc & He & _)]]];
    cbn [fst printed flat_map app]; eauto.
  apply Hcaught in Hc. congruence.
Qed.

(** Absent summary and tree become empty strings when the content is text. *)
Lemma absent_summary_tree_empty (argv : list pystr) (url : pystr)
    (ingest : ingest_fn) (c : pystr) :
  nth_error argv 1 = Some url ->
  ingest url = Ok (None, None, Some c) ->
  exists d, printed (fst (run argv (Ok ingest))) = [d]
            /\ dict_get d (lit "summary") = Some (PStr [])
            /\ dict_get d (lit "tree") = Some (PStr []).
Proof.
  intros Hu Hi.
  destruct (Z.lt_ge_cases 50000 (len_list c)) as [Hlt|Hge].
  - rewrite (run_content_long _ _ _ _ _ _ Hu Hi Hlt).
    eexists. split; [reflexivity|]. split; reflexivity.
  - rewrite (run_content_short _ _ _ _ _ _ Hu Hi Hge).
    eexists. split; [reflexivity|]. split; reflexivity.
Qed.

(** A successful ingestion whose content is text prints the success record
    and ends with status 0. *)
Lemma text_content_succeeds (argv : list pystr) (url : pystr)
    (ingest : ingest_fn) (s tr : option pystr) (c : pystr) :
  nth_error argv 1 = Some url ->
  ingest url = Ok (s, tr, Some c) ->
  exists content,
    printed (fst (run argv (Ok ingest))) =
      [success_record (or_empty s) (or_empty tr) content]
    /\ snd (run argv (Ok ingest)) = Exit 0.
Proof.
  intros Hu Hi.
  destruct (Z.lt_ge_cases 50000 (len_list c)) as [Hlt|Hge].
  - rewrite (run_content_long _ _ _ _ _ _ Hu Hi Hlt). eexists. split; reflexivity.
  - rewrite (run_content_short _ _ _ _ _ _ Hu Hi Hge). eexists. split; reflexivity.
Qed.

(** ** [json.dumps] writes ASCII only *)

Example json_escape_samples :
  json_escape 233%N = lit "\u00e9"
  /\ json_escape 127%N = lit "\u007f"
  /\ json_escape 128512%N = lit "\ud83d\ude00"
  /\ json_escape 9%N = lit "\t"
  /\ json_escape 65%N = lit "A".
Proof. repeat split. Qed.

Lemma ascii_only_app (s s' : pystr) :
  ascii_only s -> ascii_only s' -> ascii_only (s ++ s').
Proof. intros H H'. apply Forall_app. now split. Qed.

Lemma hexdigit_ascii (n : N) : (hexdigit (n mod 16) < 128)%N.
Proof.
  unfold hexdigit.
  assert (n mod 16 < 16)%N by (apply N.mod_lt; discriminate).
  destruct (N.ltb_spec (n mod 16) 10); lia.
Qed.

Lemma u_escape_ascii (n : N) : ascii_only (u_escape n).
Proof.
  unfold u_escape, hex4, ascii_only.
  repeat constructor; apply hexdigit_ascii.
Qed.

Lemma json_escape_ascii (c : codepoint) : ascii_only (json_escape c).
Proof.
  unfold json_escape.
  repeat match goal with
         | |- ascii_only (if (?a =? ?b)%N then _ else _) =>
             destruct (N.eqb_spec a b); [repeat constructor|]
         end.
  destruct (N.leb_spec 32 c); cbn [andb].
  - destruct (N.leb_spec c 126); [repeat constructor; lia|].
    destruct (N.ltb_spec c 65536);
      [apply u_escape_ascii | apply ascii_only_app; apply u_escape_ascii].
  - destruct (N.ltb_spec c 65536);
      [apply u_escape_ascii | apply ascii_only_app; apply u_escape_ascii].
Qed.

Lemma json_string_ascii (s : pystr) : ascii_only (json_string s).
Proof.
  unfold json_string. constructor; [reflexivity|].
  apply ascii_only_app; [|repeat constructor].
  induction s as [|c s IH]; cbn [flat_map]; [constructor|].
  apply ascii_only_app; [apply json_escape_ascii | exact IH].
Qed.

Lemma json_value_ascii (v : pyval) : ascii_only (json_value v).
Proof.
  destruct v as [|[|]|s]; cbn [json_value];
    [repeat constructor .. | apply json_string_ascii].
Qed.

Lemma json_item_ascii (kv : pystr * pyval) : ascii_only (json_item kv).
Proof.
  unfold json_item.
  apply ascii_only_app; [apply json_string_ascii|].
  apply ascii_only_app; [repeat constructor | apply json_value_ascii].
Qed.

Lemma json_items_ascii (d : dict) : ascii_only (json_items d).
Proof.
  induction d as [|kv [|kv' rest] IH].
  - constructor.
  - apply json_item_ascii.
  - change (ascii_only (json_item kv ++ lit ", " ++ json_items (kv' :: rest))).
    apply ascii_only_app; [apply json_item_ascii|].
    apply ascii_only_app; [repeat constructor | exact IH].
Qed.

(** Whatever the strings hold, the text written to standard output is
    ASCII, so its bytes are its characters. *)
Lemma stdout_text_ascii (t : trace) : ascii_only (stdout_text t).
Proof.
  induction t as [|[m|d] t IH]; cbn [stdout_text flat_map].
  - constructor.
  - exact IH.
  - apply ascii_only_app; [|exact IH].
    unfold json_dumps. repeat apply ascii_only_app;
      try apply json_items_ascii; repeat constructor.
Qed.

(** ** The properties of the script *)

(** C1: when the ingestion succeeds with a content of more than 50000
    characters, the single record printed is the success record whose
    content is the first 50000 characters of the original followed by the
    marker "\n\n... [Content truncated for size]"; its length is 50000 plus
    the length of the marker. *)
Theorem long_content_is_truncated (argv : list pystr) (url : pystr)
    (ingest : ingest_fn) (s tr : option pystr) (c : pystr) :
  nth_error argv 1 = Some url ->
  ingest url = Ok (s, tr, Some c) ->
  50000 < len_list c ->
  printed (fst (run argv (Ok ingest))) =
    [success_record (or_empty s) (or_empty tr)
       (first_chars 50000 c ++ [newline; newline]
          ++ lit "... [Content truncated for size]")]
  /\ len_list (first_chars 50000 c ++ [newline; newline]
                 ++ lit "... [Content truncated for size]")
     = 50000 + len_list ([newline; newline]
                           ++ lit "... [Content truncated for size]").
Proof.
  intros Hu Hi Hlen. split.
  - now rewrite (run_content_long _ _ _ _ _ _ Hu Hi Hlen).
  - rewrite len_list_app, len_first_chars by lia. reflexivity.
Qed.

(** C2, amended: when the call of [ingest] raises an exception that is an
    [Exception] but not an [ImportError], with [str(e)] = M, the single
    record printed is the failure record whose error is M, and the exit
    status is 1. *)
Theorem ingest_exception_reported (argv : list pystr) (url : pystr)
    (ingest : ingest_fn) (e : pyexc) :
  nth_error argv 1 = Some url ->
  ingest url = Raise e ->
  isinstance_Exception e = true ->
  isinstance_ImportError e = false ->
  printed (fst (run argv (Ok ingest))) = [failure_record (str_exc e)]
  /\ dict_get (failure_record (str_exc e)) (lit "error") = Some (PStr (str_exc e))
  /\ snd (run argv (Ok ingest)) = Exit 1.
Proof.
  intros Hu Hi He Hn.
  rewrite (run_ingest_raises _ _ _ _ Hu Hi). unfold raised_outcome.
  rewrite Hn, He. repeat split.
Qed.

(** C3: with an absent content the script does not print a success record
    with an empty content: [len(content)] raises a [TypeError], which the
    generic handler reports as a failure with exit status 1. *)
Theorem absent_content_reported_as_failure (a url : pystr) (r : list pystr)
    (s tr : option pystr) :
  run (a :: url :: r) (Ok (fun _ => Ok (s, tr, None))) =
    ([EImport (lit "gitingest");
      EPrintJson
        [(lit "success", PBool false);
         (lit "error", PStr (lit "object of type 'NoneType' has no len()"))]],
     Exit 1).
Proof. apply (run_content_none _ url _ s tr); reflexivity. Qed.

(** On every run, each record printed has exactly one of the two shapes
    and at most one record is printed. *)
Lemma printed_records_shaped (argv : list pystr) (g : result ingest_fn) :
  Forall (fun d => exactly_one_shape d = true) (printed (fst (run argv g)))
  /\ (List.length (printed (fst (run argv g))) <= 1)%nat.
Proof.
  destruct (run_cases argv g)
    as [(error & ->)|[(error & ->)|[(s & tr & c & ->)|(e & _ & _ & ->)]]];
    cbn [fst printed flat_map app List.length]; split;
    repeat constructor.
Qed.


(** C5: with no argument after the script name, the single record printed
    is the failure record with the error "No repository URL provided", and
    the exit status is 1. *)
Theorem no_argument_usage_error (argv : list pystr) (g : result ingest_fn) :
  len_list argv < 2 ->
  printed (fst (run argv g)) =
    [[(lit "success", PBool false);
      (lit "error", PStr (lit "No repository URL provided"))]]
  /\ snd (run argv g) = Exit 1.
Proof.
  intros H. apply argv_short in H.
  rewrite (run_no_argument _ _ H). split; reflexivity.
Qed.

(** C6, amended: with a repository argument, when the import of the
    capability raises an [ImportError], the single record printed is the
    failure record with the error "gitingest package not installed. Run:
    pip install gitingest", which names the dependency and the remedy, and
    the exit status is 1. *)
Theorem missing_dependency_reported (argv : list pystr) (url : pystr)
    (e : pyexc) :
  nth_error argv 1 = Some url ->
  isinstance_ImportError e = true ->
  printed (fst (run argv (Raise e))) =
    [failure_record
       (lit "gitingest package not installed. Run: pip install gitingest")]
  /\ infixb (lit "gitingest")
       (lit "gitingest package not installed. Run: pip install gitingest") = true
  /\ infixb (lit "pip install gitingest")
       (lit "gitingest package not installed. Run: pip install gitingest") = true
  /\ snd (run argv (Raise e)) = Exit 1.
Proof.
  intros Hu He.
  rewrite (run_import_raises _ _ _ Hu). unfold raised_outcome. rewrite He.
  repeat split.
Qed.

(** C7: when the ingestion succeeds with a content of at most 50000
    characters, 50000 included, the single record printed is the success
    record whose content is the original content, with nothing appended. *)
Theorem short_content_unchanged (argv : list pystr) (url : pystr)
    (ingest : ingest_fn) (s tr : option pystr) (c : pystr) :
  nth_error argv 1 = Some url ->
  ingest url = Ok (s, tr, Some c) ->
  len_list c <= 50000 ->
  printed (fst (run argv (Ok ingest))) =
    [success_record (or_empty s) (or_empty tr) c]
  /\ dict_get (success_record (or_empty s) (or_empty tr) c) (lit "content")
     = Some (PStr c).
Proof.
  intros Hu Hi Hlen.
  rewrite (run_content_short _ _ _ _ _ _ Hu Hi Hlen). split; reflexivity.
Qed.

(** C8: two invocations with the same repository identifier and the same
    capability write the same characters to standard output and end the
    same way, whatever the script name and the further arguments are. *)
Theorem same_identifier_same_output (argv argv' : list pystr)
    (g : result ingest_fn) :
  nth_error argv 1 = nth_error argv' 1 ->
  stdout_text (fst (run argv g)) = stdout_text (fst (run argv' g))
  /\ snd (run argv g) = snd (run argv' g).
Proof.
  intros H. enough (run argv g = run argv' g) as -> by (split; reflexivity).
  destruct (nth_error argv 1) as [url|] eqn:Hu; symmetry in H.
  - rewrite (run_argv_irrelevant _ _ g Hu), (run_argv_irrelevant _ _ g H).
    reflexivity.
  - rewrite (run_no_argument _ g Hu), (run_no_argument _ g H). reflexivity.
Qed.

(** C9: a successful ingestion with an absent content does not end with a
    success record and status 0: no record printed has the success shape
    and the exit status is 1. *)
Theorem absent_content_exits_nonzero (a url : pystr) (r : list pystr)
    (s tr : option pystr) :
  existsb success_shape
    (printed (fst (run (a :: url :: r) (Ok (fun _ => Ok (s, tr, None))))))
  = false
  /\ snd (run (a :: url :: r) (Ok (fun _ => Ok (s, tr, None)))) = Exit 1.
Proof.
  pose proof (run_content_none (a :: url :: r) url
                (fun _ => Ok (s, tr, None)) s tr eq_refl eq_refl) as E.
  unfold ingest_fn in E. rewrite E. split; reflexivity.
Qed.

(** C10: with no argument the import is never attempted, and the run is
    the same whatever the import would give: the usage failure record with
    the error "No repository URL provided". *)
Theorem usage_check_precedes_import (argv : list pystr)
    (g g' : result ingest_fn) :
  len_list argv < 2 ->
  imported (fst (run argv g)) = []
  /\ run argv g = run argv g'
  /\ printed (fst (run argv g)) =
       [failure_record (lit "No repository URL provided")].
Proof.
  intros H. apply argv_short in H.
  rewrite !(run_no_argument _ _ H). repeat split.
Qed.

(** ** Concrete runs *)

Lemma long_content_is_truncated_witness :
  50000 < len_list long_content
  /\ printed (fst (run sample_argv (Ok (fun _ => Ok (None, None, Some long_content))))) =
       [success_record [] []
          (first_chars 50000 long_content ++ [newline; newline]
             ++ lit "... [Content truncated for size]")]
  /\ len_list (first_chars 50000 long_content ++ [newline; newline]
                 ++ lit "... [Content truncated for size]")
     = 50000 + len_list ([newline; newline]
                           ++ lit "... [Content truncated for size]").
Proof.
  split; [vm_compute; reflexivity|].
  apply (long_content_is_truncated sample_argv sample_url
           (fun _ => Ok (None, None, Some long_content)) None None long_content);
    [reflexivity | reflexivity | vm_compute; reflexivity].
Defined.

(** C2 as stated fails: an [ImportError] that the call of [ingest] raises
    (here for a module the package loads lazily) is reported with the fixed
    not-installed text, not with its own message. *)
Lemma ingest_import_error_masked :
  printed (fst (run sample_argv
                  (Ok (fun _ => Raise (Exc ModuleNotFoundError
                                         (lit "No module named 'pathspec'")))))) =
    [failure_record
       (lit "gitingest package not installed. Run: pip install gitingest")]
  /\ ~ (printed (fst (run sample_argv
                        (Ok (fun _ => Raise (Exc ModuleNotFoundError
                                               (lit "No module named 'pathspec'")))))) =
          [failure_record (lit "No module named 'pathspec'")]
        /\ snd (run sample_argv
                  (Ok (fun _ => Raise (Exc ModuleNotFoundError
                                         (lit "No module named 'pathspec'"))))) = Exit 1).
Proof.
  split; [reflexivity|].
  intros [H _]. vm_compute in H. discriminate H.
Qed.

Lemma ingest_exception_reported_witness :
  printed (fst (run sample_argv
                  (Ok (fun _ => Raise (Exc ValueError (lit "Repository not found")))))) =
    [failure_record (lit "Repository not found")]
  /\ dict_get (failure_record (lit "Repository not found")) (lit "error")
     = Some (PStr (lit "Repository not found"))
  /\ snd (run sample_argv
            (Ok (fun _ => Raise (Exc ValueError (lit "Repository not found"))))) = Exit 1.
Proof.
  apply (ingest_exception_reported sample_argv sample_url
           (fun _ => Raise (Exc ValueError (lit "Repository not found")))
           (Exc ValueError (lit "Repository not found")));
    reflexivity.
Defined.



Lemma no_argument_usage_error_witness :
  printed (fst (run [lit "gitingest_wrapper.py"] (Ok sample_ingest))) =
    [[(lit "success", PBool false);
      (lit "error", PStr (lit "No repository URL provided"))]]
  /\ snd (run [lit "gitingest_wrapper.py"] (Ok sample_ingest)) = Exit 1.
Proof.
  apply (no_argument_usage_error [lit "gitingest_wrapper.py"] (Ok sample_ingest)).
  reflexivity.
Defined.

(** C6 as stated fails: with no argument and the package missing, the error
    printed is the usage error, which does not name the dependency. *)
Lemma missing_dependency_masked_by_usage_error :
  ~ (exists error,
        printed (fst (run [lit "gitingest_wrapper.py"]
                        (Raise (Exc ModuleNotFoundError
                                  (lit "No module named 'gitingest'"))))) =
          [failure_record error]
        /\ infixb (lit "gitingest") error = true).
Proof.
  intros (error & H & Hin). vm_compute in H.
  injection H as <-. vm_compute in Hin. discriminate Hin.
Qed.

Lemma missing_dependency_reported_witness :
  printed (fst (run sample_argv
                  (Raise (Exc ModuleNotFoundError (lit "No module named 'gitingest'"))))) =
    [failure_record
       (lit "gitingest package not installed. Run: pip install gitingest")]
  /\ infixb (lit "gitingest")
       (lit "gitingest package not installed. Run: pip install gitingest") = true
  /\ infixb (lit "pip install gitingest")
       (lit "gitingest package not installed. Run: pip install gitingest") = true
  /\ snd (run sample_argv
            (Raise (Exc ModuleNotFoundError (lit "No module named 'gitingest'")))) = Exit 1.
Proof.
  apply (missing_dependency_reported sample_argv sample_url
           (Exc ModuleNotFoundError (lit "No module named 'gitingest'")));
    reflexivity.
Defined.

Lemma short_content_unchanged_witness :
  printed (fst (run sample_argv (Ok sample_ingest))) =
    [success_record (lit "A sample repo") (lit "repo/") (lit "print('hi')")]
  /\ dict_get (success_record (lit "A sample repo") (lit "repo/") (lit "print('hi')"))
       (lit "content")
     = Some (PStr (lit "print('hi')")).
Proof.
  apply (short_content_unchanged sample_argv sample_url sample_ingest
           (Some (lit "A sample repo")) (Some (lit "repo/")) (lit "print('hi')"));
    [reflexivity | reflexivity | vm_compute; discriminate].
Defined.

Lemma same_identifier_same_output_witness :
  stdout_text (fst (run sample_argv (Ok sample_ingest))) =
    stdout_text (fst (run [lit "./wrapper"; sample_url; lit "--verbose"]
                        (Ok sample_ingest)))
  /\ snd (run sample_argv (Ok sample_ingest)) =
     snd (run [lit "./wrapper"; sample_url; lit "--verbose"] (Ok sample_ingest)).
Proof.
  apply (same_identifier_same_output sample_argv
           [lit "./wrapper"; sample_url; lit "--verbose"] (Ok sample_ingest)).
  reflexivity.
Defined.

Lemma usage_check_precedes_import_witness :
  imported (fst (run [lit "gitingest_wrapper.py"] (Ok sample_ingest))) = []
  /\ run [lit "gitingest_wrapper.py"] (Ok sample_ingest) =
     run [lit "gitingest_wrapper.py"]
       (Raise (Exc ModuleNotFoundError (lit "No module named 'gitingest'")))
  /\ printed (fst (run [lit "gitingest_wrapper.py"] (Ok sample_ingest))) =
       [failure_record (lit "No repository URL provided")].
Proof.
  apply (usage_check_precedes_import [lit "gitingest_wrapper.py"]
           (Ok sample_ingest)
           (Raise (Exc ModuleNotFoundError (lit "No module named 'gitingest'")))).
  reflexivity.
Defined.

(** ** Further properties of [main] *)

Lemma truncation_marker_length : len_list truncation_marker = 34.
Proof. reflexivity. Qed.

Lemma run_closed_form (argv : list pystr) (g : result ingest_fn) :
  run argv g = closed_form argv g.
Proof.
  unfold closed_form.
  destruct (nth_error argv 1) as [url|] eqn:Hu;
    [|exact (run_no_argument _ _ Hu)].
  destruct g as [ingest|e]; [|exact (run_import_raises _ _ _ Hu)].
  destruct (ingest url) as [[[s tr] [c|]]|e] eqn:Hi.
  - unfold capped_content.
    destruct (Z.ltb_spec 50000 (len_list c)) as [Hlt|Hge].
    + exact (run_content_long _ _ _ _ _ _ Hu Hi Hlt).
    + exact (run_content_short _ _ _ _ _ _ Hu Hi Hge).
  - exact (run_content_none _ _ _ _ _ Hu Hi).
  - exact (run_ingest_raises _ _ _ _ Hu Hi).
Qed.

Lemma capped_content_length (c : pystr) :
  len_list (capped_content c) =
    if 50000 <? len_list c then 50034 else len_list c.
Proof.
  unfold capped_content.
  destruct (Z.ltb_spec 50000 (len_list c)); [|reflexivity].
  rewrite len_list_app, len_first_chars, truncation_marker_length by lia.
  reflexivity.
Qed.

Lemma capped_content_prefix (c : pystr) :
  first_chars 50000 (capped_content c) = first_chars 50000 c.
Proof.
  unfold capped_content.
  destruct (Z.ltb_spec 50000 (len_list c)) as [Hlt|_]; [|reflexivity].
  pose proof (len_first_chars 50000 c ltac:(lia) ltac:(lia)) as Hlen.
  unfold first_chars, len_list in *.
  set (n := Z.to_nat 50000) in *.
  assert (Hn : List.length (firstn n c) = n) by lia.
  rewrite firstn_app, Hn, Nat.sub_diag, firstn_firstn, Nat.min_id.
  cbn [firstn]. apply app_nil_r.
Qed.

(** X1: whenever the ingestion returns a text content, one record of the
    success shape is printed and the exit status is 0; its summary and tree
    are the returned texts whatever their length, and the empty string
    when absent. *)
Theorem summary_and_tree_pass_through (argv : list pystr) (url : pystr)
    (ingest : ingest_fn) (s tr : option pystr) (c : pystr) :
  nth_error argv 1 = Some url ->
  ingest url = Ok (s, tr, Some c) ->
  exists d,
    printed (fst (run argv (Ok ingest))) = [d]
    /\ success_shape d = true
    /\ dict_get d (lit "summary") = Some (PStr (or_empty s))
    /\ dict_get d (lit "tree") = Some (PStr (or_empty tr))
    /\ snd (run argv (Ok ingest)) = Exit 0.
Proof.
  intros Hu Hi. rewrite run_closed_form. unfold closed_form.
  rewrite Hu, Hi. eexists. repeat split.
Qed.

(** X2: on every run, the content of every record printed is absent or a
    string of at most 50034 characters: the cap of 50000 plus the 34
    characters of the marker. *)
Theorem printed_content_bounded (argv : list pystr) (g : result ingest_fn) :
  forallb (content_at_most 50034) (printed (fst (run argv g))) = true.
Proof.
  rewrite run_closed_form. unfold closed_form.
  destruct (nth_error argv 1) as [url|]; [|reflexivity].
  assert (Hr : forall e,
             forallb (content_at_most 50034)
               (printed (fst (raised_outcome e))) = true).
  { intros e. unfold raised_outcome.
    destruct (isinstance_ImportError e); [reflexivity|].
    destruct (isinstance_Exception e); reflexivity. }
  destruct g as [ingest|e]; [|apply Hr].
  destruct (ingest url) as [[[s tr] [c|]]|e]; [|reflexivity|apply Hr].
  cbn [fst printed flat_map app forallb]. rewrite andb_true_r.
  change (content_at_most 50034 _)
    with (len_list (capped_content c) <=? 50034).
  rewrite capped_content_length. apply Z.leb_le.
  destruct (Z.ltb_spec 50000 (len_list c)); lia.
Qed.

(** X3: the content printed for a text content agrees with the original on
    its first 50000 characters. *)
Theorem printed_content_keeps_prefix (argv : list pystr) (url : pystr)
    (ingest : ingest_fn) (s tr : option pystr) (c : pystr) :
  nth_error argv 1 = Some url ->
  ingest url = Ok (s, tr, Some c) ->
  exists out,
    printed_content (fst (run argv (Ok ingest))) = Some out
    /\ first_chars 50000 out = first_chars 50000 c.
Proof.
  intros Hu Hi. rewrite run_closed_form. unfold closed_form.
  rewrite Hu, Hi. exists (capped_content c).
  split; [reflexivity | apply capped_content_prefix].
Qed.

(** X4: the content printed is longer than 50000 characters exactly when
    the original was, and then it has exactly 50034: a reader can tell a
    truncated content by its length. *)
Theorem truncation_shows_in_length (argv : list pystr) (url : pystr)
    (ingest : ingest_fn) (s tr : option pystr) (c : pystr) :
  nth_error argv 1 = Some url ->
  ingest url = Ok (s, tr, Some c) ->
  exists out,
    printed_content (fst (run argv (Ok ingest))) = Some out
    /\ (50000 < len_list out <-> 50000 < len_list c)
    /\ (50000 < len_list out -> len_list out = 50034).
Proof.
  intros Hu Hi. rewrite run_closed_form. unfold closed_form.
  rewrite Hu, Hi. exists (capped_content c).
  split; [reflexivity|]. rewrite capped_content_length.
  destruct (Z.ltb_spec 50000 (len_list c)); lia.
Qed.

(** X5: on every run the exit status agrees with the record printed: 0
    with a record of the success shape, 1 with a record of the failure
    shape. *)
Theorem exit_status_matches_record (argv : list pystr) (g : result ingest_fn) :
  Forall (fun d =>
            (success_shape d = true -> snd (run argv g) = Exit 0)
            /\ (failure_shape d = true -> snd (run argv g) = Exit 1))
    (printed (fst (run argv g))).
Proof.
  destruct (run_cases argv g)
    as [(error & ->)|[(error & ->)|[(s & tr & c & ->)|(e & _ & _ & ->)]]];
    cbn [fst snd printed flat_map app]; repeat constructor;
    intros H; try reflexivity; discriminate H.
Qed.

(** X6: a run prints no record exactly when the import or the call raises
    an exception that is not an [Exception] ([KeyboardInterrupt],
    [SystemExit], [GeneratorExit]). *)
Theorem no_record_iff_base_exception (argv : list pystr) (g : result ingest_fn) :
  printed (fst (run argv g)) = []
  <-> exists e, capability_raises argv g = Some e
                /\ isinstance_Exception e = false.
Proof.
  rewrite run_closed_form. unfold closed_form, capability_raises.
  assert (Hr : forall e,
             printed (fst (raised_outcome e)) = []
             <-> isinstance_Exception e = false).
  { intros e. unfold raised_outcome.
    destruct e as [code|[] msg]; cbn; split; congruence. }
  destruct (nth_error argv 1) as [url|].
  - destruct g as [ingest|e].
    + destruct (ingest url) as [[[s tr] [c|]]|e].
      * split; [discriminate | intros (e & He & _); discriminate He].
      * split; [discriminate | intros (e & He & _); discriminate He].
      * rewrite Hr. split; [eauto | intros (e' & [= <-] & He); exact He].
    + rewrite Hr. split; [eauto | intros (e' & [= <-] & He); exact He].
  - split; [discriminate | intros (e & He & _); discriminate He].
Qed.

(** X7: an exception that is not an [Exception], raised by the import or by
    the call, is not turned into a failure record: nothing is printed and
    the exception leaves [main] uncaught.  When it is a [SystemExit] whose
    code is an integer from 0 to 255, the process ends with that code as
    its exit status, 0 included. *)
Theorem base_exception_propagates (argv : list pystr) (g : result ingest_fn)
    (e : pyexc) :
  capability_raises argv g = Some e ->
  isinstance_Exception e = false ->
  (forall code, e = SystemExit code -> 0 <= code <= 255) ->
  run argv g =
    ([EImport (lit "gitingest")],
     match e with
     | SystemExit code => Exit code
     | Exc _ _ => Uncaught e
     end).
Proof.
  intros Hc He Hcode. rewrite run_closed_form.
  unfold closed_form. unfold capability_raises in Hc.
  assert (Hr : raised_outcome e =
               ([EImport (lit "gitingest")],
                match e with
                | SystemExit code => Exit code
                | Exc _ _ => Uncaught e
                end)).
  { unfold raised_outcome. rewrite He.
    destruct e as [code|[] msg]; try reflexivity; try discriminate He.
    cbn [isinstance_ImportError terminate].
    now rewrite Z.mod_small by (specialize (Hcode code eq_refl); lia). }
  destruct (nth_error argv 1) as [url|]; [|discriminate Hc].
  destruct g as [ingest|e']; [|now injection Hc as ->].
  destruct (ingest url) as [[[s tr] [c|]]|e']; try discriminate Hc.
  now injection Hc as ->.
Qed.

(** X8: an [ImportError] raised by the call of [ingest], and not only by
    the import, is reported with the fixed not-installed text instead of
    its own message, with exit status 1. *)
Theorem import_error_in_call_reported_as_missing (argv : list pystr)
    (url : pystr) (ingest : ingest_fn) (e : pyexc) :
  nth_error argv 1 = Some url ->
  ingest url = Raise e ->
  isinstance_ImportError e = true ->
  printed (fst (run argv (Ok ingest))) =
    [failure_record
       (lit "gitingest package not installed. Run: pip install gitingest")]
  /\ snd (run argv (Ok ingest)) = Exit 1.
Proof.
  intros Hu Hi He. rewrite (run_ingest_raises _ _ _ _ Hu Hi).
  unfold raised_outcome. rewrite He. split; reflexivity.
Qed.

(** X9: when the import itself raises an [Exception] that is not an
    [ImportError], the generic handler reports it: the failure record
    carries [str(e)] and the exit status is 1. *)
Theorem import_exception_reported (argv : list pystr) (url : pystr)
    (e : pyexc) :
  nth_error argv 1 = Some url ->
  isinstance_ImportError e = false ->
  isinstance_Exception e = true ->
  printed (fst (run argv (Raise e))) = [failure_record (str_exc e)]
  /\ snd (run argv (Raise e)) = Exit 1.
Proof.
  intros Hu Hn He. rewrite (run_import_raises _ _ _ Hu).
  unfold raised_outcome. rewrite Hn, He. split; reflexivity.
Qed.

(** X10: the import of the package is attempted exactly once when
    [sys.argv] has an argument, whatever it is, and never otherwise. *)
Theorem import_attempted_iff_argument (argv : list pystr)
    (g : result ingest_fn) :
  imported (fst (run argv g)) =
    if len_list argv <? 2 then [] else [lit "gitingest"].
Proof.
  destruct (Z.ltb_spec (len_list argv) 2) as [Hlt|Hge].
  - apply argv_short in Hlt. now rewrite (run_no_argument _ _ Hlt).
  - destruct (nth_error argv 1) as [url|] eqn:Hu;
      [|apply argv_short in Hu; lia].
    destruct (run_cases argv g)
      as [(error & Hrun)|[(error & ->)|[(s & tr & c & ->)|(e & _ & _ & ->)]]];
      try reflexivity.
    rewrite run_closed_form in Hrun. unfold closed_form in Hrun.
    rewrite Hu in Hrun.
    assert (Hr : forall e,
               raised_outcome e <> ([EPrintJson (failure_record error)], Exit 1)).
    { intros e. unfold raised_outcome.
      destruct (isinstance_ImportError e); [discriminate|].
      destruct (isinstance_Exception e); discriminate. }
    destruct g as [ingest|e]; [|now apply Hr in Hrun].
    destruct (ingest url) as [[[s tr] [c|]]|e];
      try discriminate Hrun. now apply Hr in Hrun.
Qed.

(** ** Concrete runs for the further properties *)

Lemma summary_and_tree_pass_through_witness :
  exists d,
    printed (fst (run sample_argv
                    (Ok (fun _ => Ok (None, Some long_content,
                                      Some (lit "print('hi')")))))) = [d]
    /\ success_shape d = true
    /\ dict_get d (lit "summary") = Some (PStr (or_empty None))
    /\ dict_get d (lit "tree") = Some (PStr (or_empty (Some long_content)))
    /\ snd (run sample_argv
              (Ok (fun _ => Ok (None, Some long_content,
                                Some (lit "print('hi')"))))) = Exit 0.
Proof.
  apply (summary_and_tree_pass_through sample_argv sample_url
           (fun _ => Ok (None, Some long_content, Some (lit "print('hi')")))
           None (Some long_content) (lit "print('hi')"));
    reflexivity.
Defined.

Lemma printed_content_keeps_prefix_witness :
  exists out,
    printed_content
      (fst (run sample_argv (Ok (fun _ => Ok (None, None, Some long_content)))))
    = Some out
    /\ first_chars 50000 out = first_chars 50000 long_content.
Proof.
  apply (printed_content_keeps_prefix sample_argv sample_url
           (fun _ => Ok (None, None, Some long_content)) None None long_content);
    reflexivity.
Defined.

Lemma truncation_shows_in_length_witness :
  exists out,
    printed_content
      (fst (run sample_argv (Ok (fun _ => Ok (None, None, Some long_content)))))
    = Some out
    /\ (50000 < len_list out <-> 50000 < len_list long_content)
    /\ (50000 < len_list out -> len_list out = 50034).
Proof.
  apply (truncation_shows_in_length sample_argv sample_url
           (fun _ => Ok (None, None, Some long_content)) None None long_content);
    reflexivity.
Defined.

Lemma base_exception_propagates_witness :
  run sample_argv (Ok (fun _ => Raise (SystemExit 0))) =
    ([EImport (lit "gitingest")], Exit 0).
Proof.
  apply (base_exception_propagates sample_argv
           (Ok (fun _ => Raise (SystemExit 0))) (SystemExit 0));
    [reflexivity | reflexivity |].
  intros code H. injection H as <-. lia.
Defined.

Lemma import_error_in_call_reported_as_missing_witness :
  printed (fst (run sample_argv
                  (Ok (fun _ => Raise (Exc ImportError
                                         (lit "cannot import name 'Repo'")))))) =
    [failure_record
       (lit "gitingest package not installed. Run: pip install gitingest")]
  /\ snd (run sample_argv
            (Ok (fun _ => Raise (Exc ImportError
                                   (lit "cannot import name 'Repo'"))))) = Exit 1.
Proof.
  apply (import_error_in_call_reported_as_missing sample_argv sample_url
           (fun _ => Raise (Exc ImportError (lit "cannot import name 'Repo'")))
           (Exc ImportError (lit "cannot import name 'Repo'")));
    reflexivity.
Defined.

Lemma import_exception_reported_witness :
  printed (fst (run sample_argv
                  (Raise (Exc RuntimeError (lit "unsupported platform"))))) =
    [failure_record (str_exc (Exc RuntimeError (lit "unsupported platform")))]
  /\ snd (run sample_argv
            (Raise (Exc RuntimeError (lit "unsupported platform")))) = Exit 1.
Proof.
  apply (import_exception_reported sample_argv sample_url
           (Exc RuntimeError (lit "unsupported platform")));
    reflexivity.
Defined.
